(** * PyCOOL model files: [models/chaotic.py] and [models/oscillon.py]

    Each file defines one class [Model] whose constructor [__init__(self)]
    is a straight-line block of attribute assignments [self.x = e]
    followed by one conditional block (the curvature-perturbation rule).

    The embedding keeps that shape.  An instance is its attribute
    dictionary, a finite map from attribute names to Python values; the
    constructor body is the list of its assignments, in source order, each
    right-hand side a function of the dictionary built so far; running the
    body threads the dictionary through the assignments and propagates
    exceptions. *)

From Stdlib Require Import ZArith Floats Ascii String.
From stdpp Require Import gmap strings list fin_maps.

Set Warnings "-inexact-float,-register-all".

(** ** Python values and outcomes *)

Module Py.

(** The values the two constructors bind to attributes.  [float] and
    [numpy.float64] both carry an IEEE 754 binary64 number and are both
    represented by [VFloat]. *)
Inductive PyVal : Type :=
| VNone
| VBool (b : bool)
| VInt (z : Z)
| VFloat (f : float)
| VStr (s : string)
| VList (l : list PyVal).

(** The attribute dictionary of an instance ([self.__dict__]). *)
Abbreviation obj := (gmap string PyVal).

(** A computation returns a value or raises an exception, named by its
    class. *)
Inductive outcome (A : Type) : Type :=
| Returns (a : A)
| Raises (cls : string).
Arguments Returns {A} a.
Arguments Raises {A} cls.

#[global] Instance outcome_ret : MRet outcome := λ A a, Returns a.
#[global] Instance outcome_bind : MBind outcome := λ A B k c,
  match c with
  | Returns a => k a
  | Raises cls => Raises cls
  end.

(** [self.x] in an expression: the bound value, or [AttributeError]. *)
Definition getattr (self : obj) (x : string) : outcome PyVal :=
  match self !! x with
  | Some v => Returns v
  | None => Raises "AttributeError"
  end.

(** Conversion of an [int] operand to [float] in mixed arithmetic:
    rounded to nearest, [OverflowError] when out of range. *)
Definition float_of_int (z : Z) : outcome float :=
  let f := SF2Prim (binary_normalize prec emax z 0 false) in
  if is_infinity f then Raises "OverflowError" else Returns f.

(** An operand of float arithmetic: floats as they are, [int] and [bool]
    converted, anything else a [TypeError]. *)
Definition as_float (v : PyVal) : outcome float :=
  match v with
  | VFloat f => Returns f
  | VInt z => float_of_int z
  | VBool b => Returns (if b then 1%float else 0%float)
  | _ => Raises "TypeError"
  end.

(** [self.x] as an operand of float arithmetic.  Every attribute read
    this way by the two constructors was bound to a float by an earlier
    assignment of the same body. *)
Definition getf (self : obj) (x : string) : outcome float :=
  v ← getattr self x; as_float v.

(** [x / y] on floats: IEEE division, except that Python raises on a zero
    divisor. *)
Definition py_div (x y : float) : outcome float :=
  if (y =? 0)%float then Raises "ZeroDivisionError" else Returns (x / y)%float.

(** [v == True] / [v == False]: [bool] and [int] and [float] compare by
    numeric value; no other value of [PyVal] equals a [bool]. *)
Definition py_eq_bool (v : PyVal) (b : bool) : bool :=
  match v with
  | VBool b' => Bool.eqb b' b
  | VInt z => (z =? (if b then 1 else 0))%Z
  | VFloat f => (f =? (if b then 1 else 0))%float
  | _ => false
  end.

(** [numpy.pi] and [numpy.sqrt] (IEEE square root, correctly rounded). *)
Definition np_pi : float := 3.141592653589793%float.
Definition np_sqrt (x : float) : float := PrimFloat.sqrt x.

(** [x ** y] on floats is [float.__pow__], which CPython implements on
    top of the C library's [pow]; neither is part of this repository, so
    the operator is a parameter of the model. *)
Class FloatPow := float_pow : float → float → outcome float.

(** One assignment [self.target = value]. *)
Record stmt : Type := Assign { target : string; value : obj → outcome PyVal }.

(** A literal right-hand side. *)
Definition lit (v : PyVal) : obj → outcome PyVal := λ _, Returns v.

(** Run a block of assignments on [self]. *)
Fixpoint exec (body : list stmt) (self : obj) : outcome obj :=
  match body with
  | [] => Returns self
  | st :: rest => v ← value st self; exec rest (<[target st := v]> self)
  end.

(** The class comment invites the user to "change these values for
    different models": [set_literal x v body] is the body with the
    right-hand side of every assignment to [x] replaced by the literal
    [v]. *)
Definition set_literal (x : string) (v : PyVal) (body : list stmt) : list stmt :=
  map (λ st, if String.eqb (target st) x then Assign x (lit v) else st) body.

(** [len(v)] for a list. *)
Definition py_len (v : PyVal) : option nat :=
  match v with
  | VList l => Some (length l)
  | _ => None
  end.

End Py.
Import Py.

Notation "x ::= e" := (Assign x e) (at level 60, e at level 200, only parsing).

(** Literal right-hand sides. *)
Definition flt (f : float) := lit (VFloat f).
Definition int (z : Z) := lit (VInt z).
Definition str (s : string) := lit (VStr s).
Definition py_True := lit (VBool true).
Definition py_False := lit (VBool false).
Definition py_None := lit VNone.

(** ** [models/chaotic.py] *)

Module chaotic.
Section Model.
Context {fpow : FloatPow}.

(** The assignments of [Model.__init__], lines 15 to 193.  Integer
    literals that are operands of float arithmetic ([8*np.pi], [4*...],
    [1024*...], the exponent of [self.m**2]) appear as the floats Python
    converts them to. *)
Definition assignments : list stmt := [
  "model_name" ::= str "chaotic inflation";
  "mpl" ::= flt 1.0;
  "MPl" ::= (λ self, mpl ← getf self "mpl";
                     mret (VFloat (np_sqrt (8 * np_pi) * mpl)));
  "m" ::= (λ self, mpl ← getf self "mpl"; mret (VFloat (1e-6 * mpl)));
  "m2f1" ::= (λ self, m ← getf self "m"; p ← float_pow m 2; mret (VFloat p));
  "m2f2" ::= flt 0.0;
  "m2_fields" ::= (λ self, m2f1 ← getattr self "m2f1"; m2f2 ← getattr self "m2f2";
                           mret (VList [m2f1; m2f2]));
  "g2" ::= (λ self, m ← getf self "m"; p ← float_pow m 2; mret (VFloat (1e4 * p)));
  "f10" ::= flt 1.0093430384226378929425913902459;
  "f20" ::= (λ self, mpl ← getf self "mpl"; mret (VFloat (1e-16 * mpl)));
  "df1_dt0" ::= (λ self, m ← getf self "m";
                         mret (VFloat (-0.7137133070120812430962278466136 * m)));
  "df2_dt0" ::= (λ self, p ← float_pow 10 (-20); mret (VFloat p));
  "fields0" ::= (λ self, f10 ← getattr self "f10"; f20 ← getattr self "f20";
                         mret (VList [f10; f20]));
  "pis0" ::= (λ self, df1_dt0 ← getattr self "df1_dt0"; df2_dt0 ← getattr self "df2_dt0";
                      mret (VList [df1_dt0; df2_dt0]));
  "q" ::= (λ self, g2 ← getf self "g2"; f10 ← getf self "f10"; p ← float_pow f10 2;
                   m2f1 ← getf self "m2f1"; r ← py_div (g2 * p) (4 * m2f1);
                   mret (VFloat r));
  "V_list" ::= lit (VList [VStr "0.5*C1*f1**2"; VStr "0.5*C2*f2**2"]);
  "V_int" ::= lit (VList [VStr "0.5*C3*f1**2*f2**2"]);
  "tmp_var" ::= lit (VList []);
  "C_coeff" ::= (λ self, m2f1 ← getattr self "m2f1"; m2f2 ← getattr self "m2f2";
                         g2 ← getattr self "g2"; mret (VList [m2f1; m2f2; g2]));
  "D_coeff" ::= lit (VList []);
  "power_list" ::= lit (VList []);
  "rho_r0" ::= flt 0.0;
  "rho_m0" ::= flt 0.0;
  "dtau" ::= (λ self, m ← getf self "m"; r ← py_div (2 * 1.0) (1024 * m);
                      mret (VFloat r));
  "dtau_hom" ::= (λ self, m ← getf self "m"; r ← py_div 1.0 (10000 * m);
                          mret (VFloat r));
  "adaptQ" ::= py_True;
  "L" ::= (λ self, m ← getf self "m"; r ← py_div 5.0 m; mret (VFloat r));
  "n" ::= int 64;
  "a_in" ::= flt 1.0;
  "a_limit" ::= int 2;
  "t_in" ::= flt 0.0;
  "t_fin" ::= (λ self, m ← getf self "m"; r ← py_div 256.0 m; mret (VFloat r));
  "t_fin_hom" ::= (λ self, m ← getf self "m"; r ← py_div 256.0 m; mret (VFloat r));
  "lin_evo" ::= py_False;
  "homogenQ" ::= py_False;
  "evoQ" ::= py_True;
  "zetaQ" ::= py_False;
  "gwsQ" ::= py_True;
  "H_ref" ::= flt 1e-12;
  "sim_num" ::= int 1;
  "saveQ" ::= py_True;
  "flush_freq" ::= int (2 * 128);
  "flush_freq_hom" ::= int (128 * 8);
  "superfolderQ" ::= py_False;
  "superfolder" ::= str "zeta_run_3";
  "scale" ::= py_False;
  "fieldsQ" ::= py_True;
  "discQ" ::= str "defrost";
  "spectQ" ::= py_True;
  "spect_gw_m" ::= str "std";
  "distQ" ::= py_True;
  "statsQ" ::= py_True;
  "field_rho" ::= py_True;
  "field_lpQ" ::= py_False;
  "deSitterQ" ::= py_True;
  "testQ" ::= py_False;
  "m2_effQ" ::= py_True;
  "csvQ" ::= py_True;
  "max_reg" ::= py_None
]%float.

(** The body of [if self.zetaQ == True:], lines 198 to 210. *)
Definition zeta_block : list stmt := [
  "evoQ" ::= py_False;
  "spectQ" ::= py_False;
  "distQ" ::= py_False;
  "statsQ" ::= py_False;
  "fieldsQ" ::= py_False;
  "field_rho" ::= py_False;
  "field_lpQ" ::= py_False;
  "testQ" ::= py_False;
  "m2_effQ" ::= py_False;
  "flush_freq" ::= int (256 * 120 * 100000);
  "flush_freq_hom" ::= int (128 * 8);
  "superfolderQ" ::= py_True;
  "saveQ" ::= py_False
].

(** Lines 196 to 210: the curvature-perturbation rule. *)
Definition zeta_rule (self : obj) : outcome obj :=
  zetaQ ← getattr self "zetaQ";
  if py_eq_bool zetaQ true then exec zeta_block self else Returns self.

(** A constructor body followed by the rule. *)
Definition run (body : list stmt) (self : obj) : outcome obj :=
  self ← exec body self; zeta_rule self.

Definition __init__ (self : obj) : outcome obj := run assignments self.

(** [Model()]: the constructor run on a fresh instance. *)
Definition Model : outcome obj := __init__ ∅.

(** [Model()] of the class with the assignment to [x] changed to the
    literal [v]. *)
Definition Model_with (x : string) (v : PyVal) : outcome obj :=
  run (set_literal x v assignments) ∅.

End Model.
End chaotic.

(** ** [models/oscillon.py] *)

Module oscillon.
Section Model.
Context {fpow : FloatPow}.

(** The assignments of [Model.__init__], lines 15 to 187. *)
Definition assignments : list stmt := [
  "model_name" ::= str "oscillon";
  "mpl" ::= flt 1.0;
  "MPl" ::= (λ self, mpl ← getf self "mpl";
                     mret (VFloat (np_sqrt (8 * np_pi) * mpl)));
  "m" ::= (λ self, mpl ← getf self "mpl"; mret (VFloat (5e-6 * mpl)));
  "m2f1" ::= (λ self, m ← getf self "m"; p ← float_pow m 2; mret (VFloat p));
  "m2f2" ::= flt 0.0;
  "m2_fields" ::= (λ self, m2f1 ← getattr self "m2f1"; m2f2 ← getattr self "m2f2";
                           mret (VList [m2f1; m2f2]));
  "lamb" ::= flt 2.8125e-6;
  "g2" ::= (λ self, lamb ← getf self "lamb"; p ← float_pow lamb 2;
                    r ← py_div p 0.1; mret (VFloat r));
  "f10" ::= (λ self, lamb ← getf self "lamb"; g2 ← getf self "g2";
                     r ← py_div (3 * lamb) (5 * g2); m ← getf self "m";
                     mret (VFloat (np_sqrt r * m)));
  "df1_dt0" ::= (λ self, m ← getf self "m"; mret (VFloat (1e-16 * m)));
  "fields0" ::= (λ self, f10 ← getattr self "f10"; mret (VList [f10]));
  "pis0" ::= (λ self, df1_dt0 ← getattr self "df1_dt0"; mret (VList [df1_dt0]));
  "V_list" ::= lit (VList [VStr "0.5*C1*f1**2"]);
  "V_int" ::= lit (VList [VStr "(-0.25*C2*f1**4)"; VStr "0.16666666666666666*C3*f1**6"]);
  "tmp_var" ::= lit (VList []);
  "C_coeff" ::= (λ self, m2f1 ← getattr self "m2f1"; lamb ← getattr self "lamb";
                         g2 ← getf self "g2"; m ← getf self "m"; p ← float_pow m 2;
                         r ← py_div g2 p; mret (VList [m2f1; lamb; VFloat r]));
  "D_coeff" ::= lit (VList []);
  "power_list" ::= lit (VList []);
  "rho_r0" ::= flt 0.0;
  "rho_m0" ::= flt 0.0;
  "dtau" ::= (λ self, m ← getf self "m"; r ← py_div 0.005 m; mret (VFloat r));
  "dtau_hom" ::= (λ self, m ← getf self "m"; r ← py_div 1.0 (10000 * m);
                          mret (VFloat r));
  "adaptQ" ::= py_False;
  "L" ::= (λ self, m ← getf self "m"; r ← py_div 400.0 m; mret (VFloat r));
  "n" ::= int 128;
  "a_in" ::= flt 1.0;
  "a_limit" ::= int 2;
  "t_in" ::= flt 0.0;
  "t_fin" ::= (λ self, m ← getf self "m"; r ← py_div 5000.0 m; mret (VFloat r));
  "t_fin_hom" ::= (λ self, m ← getf self "m"; r ← py_div 5000.0 m; mret (VFloat r));
  "lin_evo" ::= py_False;
  "homogenQ" ::= py_False;
  "evoQ" ::= py_True;
  "gwsQ" ::= py_False;
  "zetaQ" ::= py_False;
  "H_ref" ::= flt 1e-12;
  "sim_num" ::= int 1;
  "flush_freq" ::= int (4 * 1024);
  "flush_freq_hom" ::= int (128 * 20);
  "saveQ" ::= py_True;
  "superfolderQ" ::= py_False;
  "superfolder" ::= str "zeta_run_1";
  "scale" ::= py_False;
  "fieldsQ" ::= py_True;
  "discQ" ::= str "defrost";
  "spectQ" ::= py_True;
  "spect_gw_m" ::= str "std";
  "distQ" ::= py_True;
  "statsQ" ::= py_True;
  "field_rho" ::= py_True;
  "field_lpQ" ::= py_False;
  "deSitterQ" ::= py_False;
  "testQ" ::= py_False;
  "m2_effQ" ::= py_False;
  "csvQ" ::= py_True;
  "max_reg" ::= py_None
]%float.

(** The body of [if self.zetaQ == True:], lines 193 to 204. *)
Definition zeta_block : list stmt := [
  "evoQ" ::= py_False;
  "spectQ" ::= py_False;
  "distQ" ::= py_False;
  "statsQ" ::= py_False;
  "fieldsQ" ::= py_False;
  "field_rho" ::= py_False;
  "field_lpQ" ::= py_False;
  "testQ" ::= py_False;
  "m2_effQ" ::= py_False;
  "flush_freq" ::= int (256 * 120 * 100000);
  "superfolderQ" ::= py_True;
  "saveQ" ::= py_False
].

(** Lines 190 to 204: the curvature-perturbation rule. *)
Definition zeta_rule (self : obj) : outcome obj :=
  zetaQ ← getattr self "zetaQ";
  if py_eq_bool zetaQ true then exec zeta_block self else Returns self.

(** A constructor body followed by the rule. *)
Definition run (body : list stmt) (self : obj) : outcome obj :=
  self ← exec body self; zeta_rule self.

Definition __init__ (self : obj) : outcome obj := run assignments self.

(** [Model()]: the constructor run on a fresh instance. *)
Definition Model : outcome obj := __init__ ∅.

(** [Model()] of the class with the assignment to [x] changed to the
    literal [v]. *)
Definition Model_with (x : string) (v : PyVal) : outcome obj :=
  run (set_literal x v assignments) ∅.

End Model.
End oscillon.

(** ** A reference power operator

    An instance of the parameter, used to run the constructors on
    concrete numbers: finite base and integer-valued exponent, the exact
    power rounded once to nearest (what IEEE 754 recommends of [pow]),
    with Python's exceptions for a zero base and for overflow. *)

Module RefPow.

(** The integer a float is, when it is one. *)
Definition integer_of (y : float) : option Z :=
  match Prim2SF y with
  | S754_zero _ => Some 0%Z
  | S754_finite s m e =>
      let sgn (k : Z) := if s then (- k)%Z else k in
      if (0 <=? e)%Z then Some (sgn (Z.pos m * 2 ^ e)%Z)
      else if (Z.pos m mod 2 ^ (- e) =? 0)%Z then Some (sgn (Z.pos m / 2 ^ (- e))%Z)
      else None
  | _ => None
  end.

Definition checked (r : float) : outcome float :=
  if is_infinity r then Raises "OverflowError" else Returns r.

Definition pow (x y : float) : outcome float :=
  match integer_of y with
  | None => Raises "NotImplementedError"
  | Some 0%Z => Returns 1%float
  | Some (Z.pos n) =>
      match Prim2SF x with
      | S754_zero s => Returns (if s && Z.odd (Z.pos n) then (-0)%float else 0%float)
      | S754_finite s m e =>
          let mag := (Z.pos m ^ Z.pos n)%Z in
          checked (SF2Prim (binary_normalize prec emax
                     (if s && Z.odd (Z.pos n) then - mag else mag)%Z (e * Z.pos n) false))
      | _ => Raises "NotImplementedError"
      end
  | Some (Z.neg n) =>
      match Prim2SF x with
      | S754_zero _ => Raises "ZeroDivisionError"
      | S754_finite s m e =>
          checked (SF2Prim (SFdiv prec emax (S754_finite false 1 0)
                     (S754_finite (s && Z.odd (Z.pos n)) (m ^ n)%positive (e * Z.pos n))))
      | _ => Raises "NotImplementedError"
      end
  end.

End RefPow.


(** ** Notions the properties are stated with *)

(** What the curvature-perturbation rule leaves behind: the eight
    analysis flags off, batching on, saving off, and the flush frequency
    out of reach. *)
Definition zeta_forced (s : obj) : Prop :=
  s !! "evoQ" = Some (VBool false) ∧
  s !! "spectQ" = Some (VBool false) ∧
  s !! "distQ" = Some (VBool false) ∧
  s !! "statsQ" = Some (VBool false) ∧
  s !! "field_rho" = Some (VBool false) ∧
  s !! "field_lpQ" = Some (VBool false) ∧
  s !! "testQ" = Some (VBool false) ∧
  s !! "m2_effQ" = Some (VBool false) ∧
  s !! "superfolderQ" = Some (VBool true) ∧
  s !! "saveQ" = Some (VBool false) ∧
  s !! "flush_freq" = Some (VInt (256 * 120 * 100000)).

(** [len(self.x)]. *)
Definition attr_len (s : obj) (x : string) : option nat := s !! x ≫= py_len.

(** *** Accuracy of the power operator

    What the properties of a constructed instance need of [**]: at the
    operands the constructors supply, it returns, and a square is within
    one unit in the last place of the correctly rounded one. *)
Section Accuracy.
Context {fpow : FloatPow}.

Definition within_ulp (r v : float) : Prop :=
  r = next_down v ∨ r = v ∨ r = next_up v.

Definition squares_at (x : float) : Prop :=
  ∃ r, float_pow x 2 = Returns r ∧ within_ulp r (x * x).

Definition returns_at (x y : float) : Prop :=
  ∃ r, float_pow x y = Returns r.

(** The operands of [**] in [chaotic.py]: [self.m] (twice), [self.f10]
    and the literals of [10.**-20.]. *)
Definition chaotic_pow_ok : Prop :=
  squares_at (1e-6 * 1.0) ∧
  squares_at 1.0093430384226378929425913902459 ∧
  returns_at 10 (-20).

(** The operands of [**] in [oscillon.py]: [self.m] (twice) and
    [self.lamb]. *)
Definition oscillon_pow_ok : Prop :=
  squares_at (5e-6 * 1.0) ∧ squares_at 2.8125e-6.

End Accuracy.

(** *** Coefficient placeholders *)

Definition is_digit (c : ascii) : bool :=
  let k := nat_of_ascii c in (48 <=? k)%nat && (k <=? 57)%nat.

Definition is_letter (c : ascii) : bool :=
  let k := nat_of_ascii c in
  ((65 <=? k)%nat && (k <=? 90)%nat) || ((97 <=? k)%nat && (k <=? 122)%nat).

Definition is_name_char (c : ascii) : bool :=
  is_letter c || is_digit c || Ascii.eqb c "_".

Definition flush (cur : string) : list string :=
  match cur with
  | EmptyString => []
  | _ => [cur]
  end.

(** The maximal runs of letters, digits and underscores of an expression
    string, left to right; [cur] is the run being read. *)
Fixpoint runs (cur : string) (e : string) : list string :=
  match e with
  | EmptyString => flush cur
  | String c e' =>
      if is_name_char c then runs (cur +:+ String c EmptyString) e'
      else flush cur ++ runs EmptyString e'
  end.

Fixpoint all_digits (s : string) : bool :=
  match s with
  | EmptyString => true
  | String c s' => is_digit c && all_digits s'
  end.

(** [C1], [C2], ...: a capital C followed by one or more digits. *)
Definition is_placeholder (w : string) : bool :=
  match w with
  | String "C" (String d ds) => is_digit d && all_digits ds
  | _ => false
  end.

(** Modelled from the spec: the coefficient placeholders ([C1, C2, …])
    an expression string references; the evaluator that resolves them is
    not among the model files.  A placeholder is a whole name of the
    expression, so neither the [C] of a longer name nor digits inside a
    number count. *)
Definition placeholders (e : string) : list string :=
  filter (λ w, is_placeholder w = true) (runs EmptyString e).

(** The strings of a Python list. *)
Definition strings_of (vs : list PyVal) : list string :=
  omap (λ v, match v with VStr e => Some e | _ => None end) vs.

(** The distinct placeholders referenced across a list of expressions. *)
Definition referenced (vs : list PyVal) : list string :=
  remove_dups (flat_map placeholders (strings_of vs)).

(** The two time steps and the two end times. *)
Definition time_parameters : list string :=
  ["dtau"; "dtau_hom"; "t_fin"; "t_fin_hom"].

(** *** Agreement of two runs *)

(** Two instances agree on the attributes [D]. *)
Definition agree_on (D : list string) (s1 s2 : obj) : Prop :=
  ∀ x, x ∈ D → s1 !! x = s2 !! x.

(** Two runs end alike: the same exception, or instances that agree on
    [D]. *)
Definition same_outcome (D : list string) (o1 o2 : outcome obj) : Prop :=
  match o1, o2 with
  | Returns s1, Returns s2 => agree_on D s1 s2
  | Raises c1, Raises c2 => c1 = c2
  | _, _ => False
  end.

(** Every right-hand side of [body] reads only attributes in [D] or
    assigned earlier in [body]. *)
Fixpoint reads_within (D : list string) (body : list stmt) : Prop :=
  match body with
  | [] => True
  | st :: rest =>
      (∀ s1 s2, agree_on D s1 s2 → value st s1 = value st s2)
      ∧ reads_within (target st :: D) rest
  end.

(** The attributes a block assigns. *)
Definition targets (body : list stmt) : list string := map target body.

(** *** Reads and edits *)

(** The attributes that some right-hand side of [chaotic.py] reads. *)
Definition chaotic_reads : list string :=
  ["mpl"; "m"; "m2f1"; "m2f2"; "g2"; "f10"; "f20"; "df1_dt0"; "df2_dt0"].

(** The attributes that some right-hand side of [oscillon.py] reads. *)
Definition oscillon_reads : list string :=
  ["mpl"; "m"; "m2f1"; "m2f2"; "lamb"; "g2"; "f10"; "df1_dt0"].

(** No right-hand side of [body] depends on what attribute [x] holds. *)
Definition unread (x : string) (body : list stmt) : Prop :=
  Forall (λ st, ∀ (s : obj) (w : PyVal), value st (<[x := w]> s) = value st s) body.

(** The attributes whose value goes through [**]. *)
Definition chaotic_pow_dependent : list string :=
  ["m2f1"; "m2_fields"; "g2"; "df2_dt0"; "pis0"; "q"; "C_coeff"].

Definition oscillon_pow_dependent : list string :=
  ["m2f1"; "m2_fields"; "g2"; "f10"; "fields0"; "C_coeff"].

(** [None], a string or a list: not an operand of float arithmetic. *)
Definition non_numeric (v : PyVal) : Prop :=
  v = VNone ∨ (∃ t, v = VStr t) ∨ (∃ l, v = VList l).

(** A second power operator, for comparison with the reference one: it
    rounds every square one unit in the last place up. *)
Definition pow_rounded_up : FloatPow :=
  λ x y, match RefPow.pow x y with
         | Returns r => Returns (if (y =? 2)%float then next_up r else r)
         | Raises c => Raises c
         end.

(** ** Running a block *)

Lemma exec_cons st rest self v :
  value st self = Returns v →
  exec (st :: rest) self = exec rest (<[target st := v]> self).
Proof. intros E. simpl. rewrite E. reflexivity. Qed.

(** One assignment of a block: evaluate its right-hand side on the
    instance built so far, let [rew] resolve the calls of [**] in the
    result, and move on. *)
Ltac exec_step rew :=
  lazymatch goal with
  | |- exec (?st :: ?rest) ?self = _ =>
      let E := fresh "E" in
      let r := eval vm_compute in (value st self) in
      assert (E : value st self = r) by (vm_compute; reflexivity);
      rew E;
      rewrite (exec_cons st rest self _ E); clear E; cbn [target]
  end.

Ltac exec_block rew := repeat exec_step rew; reflexivity.

Ltac lookup_now := vm_compute; reflexivity.

(** Unfold a constructor body, edited or not, to its list of
    assignments. *)
Ltac expose_body :=
  cbv [set_literal chaotic.assignments oscillon.assignments List.map target
       String.eqb Ascii.eqb Bool.eqb].

(** With the reference operator the calls of [**] evaluate by
    themselves. *)
Ltac no_pow E := idtac.

(** ** The curvature-perturbation rule *)

Lemma chaotic_zeta_block_run (self : obj) :
  ∃ s, exec chaotic.zeta_block self = Returns s
       ∧ zeta_forced s ∧ s !! "fieldsQ" = Some (VBool false).
Proof.
  eexists. split; [reflexivity|].
  unfold zeta_forced. repeat split; simpl; by simplify_map_eq.
Qed.

Lemma oscillon_zeta_block_run (self : obj) :
  ∃ s, exec oscillon.zeta_block self = Returns s
       ∧ zeta_forced s ∧ s !! "fieldsQ" = Some (VBool false).
Proof.
  eexists. split; [reflexivity|].
  unfold zeta_forced. repeat split; simpl; by simplify_map_eq.
Qed.

Lemma chaotic_zeta_rule_fires (self : obj) :
  self !! "zetaQ" = Some (VBool true) →
  chaotic.zeta_rule self = exec chaotic.zeta_block self.
Proof. intros Hz. unfold chaotic.zeta_rule, getattr. rewrite Hz. reflexivity. Qed.

Lemma oscillon_zeta_rule_fires (self : obj) :
  self !! "zetaQ" = Some (VBool true) →
  oscillon.zeta_rule self = exec oscillon.zeta_block self.
Proof. intros Hz. unfold oscillon.zeta_rule, getattr. rewrite Hz. reflexivity. Qed.

Lemma chaotic_run_fires (body : list stmt) (self mid : obj) :
  exec body self = Returns mid →
  mid !! "zetaQ" = Some (VBool true) →
  chaotic.run body self = exec chaotic.zeta_block mid.
Proof.
  intros Hb Hz. unfold chaotic.run. rewrite Hb. simpl.
  by apply chaotic_zeta_rule_fires.
Qed.

Lemma oscillon_run_fires (body : list stmt) (self mid : obj) :
  exec body self = Returns mid →
  mid !! "zetaQ" = Some (VBool true) →
  oscillon.run body self = exec oscillon.zeta_block mid.
Proof.
  intros Hb Hz. unfold oscillon.run. rewrite Hb. simpl.
  by apply oscillon_zeta_rule_fires.
Qed.

(** With [zetaQ] [False], as both files set it, the rule changes
    nothing. *)
Lemma chaotic_run_skip (body : list stmt) (self mid : obj) :
  exec body self = Returns mid →
  mid !! "zetaQ" = Some (VBool false) →
  chaotic.run body self = Returns mid.
Proof.
  intros Hb Hz. unfold chaotic.run. rewrite Hb. simpl.
  unfold chaotic.zeta_rule, getattr. rewrite Hz. reflexivity.
Qed.

Lemma oscillon_run_skip (body : list stmt) (self mid : obj) :
  exec body self = Returns mid →
  mid !! "zetaQ" = Some (VBool false) →
  oscillon.run body self = Returns mid.
Proof.
  intros Hb Hz. unfold oscillon.run. rewrite Hb. simpl.
  unfold oscillon.zeta_rule, getattr. rewrite Hz. reflexivity.
Qed.

(** C1.  Whatever assignments precede the rule and whatever values they
    leave in the flags, if [zetaQ] is [True] when the rule runs then
    construction returns an instance with [evoQ], [spectQ], [distQ],
    [statsQ], [field_rho], [field_lpQ], [testQ] and [m2_effQ] all [False],
    [superfolderQ] [True], [saveQ] [False] and [flush_freq] equal to
    [256*120*100000]; in both classes. *)
Theorem zetaQ_forces_flags (body : list stmt) (self mid : obj) :
  exec body self = Returns mid →
  mid !! "zetaQ" = Some (VBool true) →
  (∃ s, chaotic.run body self = Returns s ∧ zeta_forced s) ∧
  (∃ s, oscillon.run body self = Returns s ∧ zeta_forced s).
Proof.
  intros Hbody Hz. split.
  - destruct (chaotic_zeta_block_run mid) as (s & Hs & Hf & _).
    exists s. split; [|exact Hf].
    by rewrite (chaotic_run_fires body self mid).
  - destruct (oscillon_zeta_block_run mid) as (s & Hs & Hf & _).
    exists s. split; [|exact Hf].
    by rewrite (oscillon_run_fires body self mid).
Qed.

(** The two classes with the literal of [self.zetaQ] changed to [True]. *)
Lemma zetaQ_forces_flags_witness :
  (∃ s, @chaotic.Model_with RefPow.pow "zetaQ" (VBool true) = Returns s
        ∧ zeta_forced s) ∧
  (∃ s, oscillon.run (set_literal "zetaQ" (VBool true) (@chaotic.assignments RefPow.pow)) ∅
        = Returns s ∧ zeta_forced s).
Proof.
  eapply zetaQ_forces_flags; [expose_body; exec_block no_pow | lookup_now].
Defined.

(** C9.  Under the same condition the rule also leaves [fieldsQ]
    [False], in both classes. *)
Theorem zetaQ_forces_fieldsQ (body : list stmt) (self mid : obj) :
  exec body self = Returns mid →
  mid !! "zetaQ" = Some (VBool true) →
  (∃ s, chaotic.run body self = Returns s ∧ s !! "fieldsQ" = Some (VBool false)) ∧
  (∃ s, oscillon.run body self = Returns s ∧ s !! "fieldsQ" = Some (VBool false)).
Proof.
  intros Hbody Hz. split.
  - destruct (chaotic_zeta_block_run mid) as (s & Hs & _ & Hf).
    exists s. split; [|exact Hf].
    by rewrite (chaotic_run_fires body self mid).
  - destruct (oscillon_zeta_block_run mid) as (s & Hs & _ & Hf).
    exists s. split; [|exact Hf].
    by rewrite (oscillon_run_fires body self mid).
Qed.

(** The oscillon class with the literal of [self.zetaQ] changed to
    [True]; [fieldsQ] was [True] before the rule. *)
Lemma zetaQ_forces_fieldsQ_witness :
  (∃ s, chaotic.run (set_literal "zetaQ" (VBool true) (@oscillon.assignments RefPow.pow)) ∅
        = Returns s ∧ s !! "fieldsQ" = Some (VBool false)) ∧
  (∃ s, @oscillon.Model_with RefPow.pow "zetaQ" (VBool true) = Returns s
        ∧ s !! "fieldsQ" = Some (VBool false)).
Proof.
  eapply zetaQ_forces_fieldsQ; [expose_body; exec_block no_pow | lookup_now].
Defined.

(** ** Constructing the two presets *)

(** The reference operator is as accurate as the properties need. *)
Lemma ref_pow_squares (x : float) :
  RefPow.pow x 2 = Returns (x * x)%float → @squares_at RefPow.pow x.
Proof. intros E. exists (x * x)%float. split; [exact E | right; left; reflexivity]. Qed.

Lemma ref_pow_chaotic_ok : @chaotic_pow_ok RefPow.pow.
Proof.
  split; [|split].
  - apply ref_pow_squares. lookup_now.
  - apply ref_pow_squares. lookup_now.
  - exists 1e-20%float. lookup_now.
Qed.

Lemma ref_pow_oscillon_ok : @oscillon_pow_ok RefPow.pow.
Proof.
  split.
  - apply ref_pow_squares. lookup_now.
  - apply ref_pow_squares. lookup_now.
Qed.

(** Resolve the calls of [**] and the zero tests of [/] in an evaluated
    right-hand side. *)
Ltac chaotic_rew H1 H2 H3 N1 E :=
  rewrite ?H1, ?H2, ?H3, ?N1 in E; cbv beta iota in E.

Ltac oscillon_rew H1 H2 N1 N2 E :=
  rewrite ?H1, ?H2, ?N1, ?N2 in E; cbv beta iota in E.

(** A square within one unit in the last place of a nonzero square is
    not zero, at the operands in question. *)
Lemma chaotic_m2f1_nonzero (r : float) :
  within_ulp r (1e-6 * 1.0 * (1e-6 * 1.0)) → (4 * r =? 0)%float = false.
Proof. intros [->|[->| ->]]; lookup_now. Qed.

Lemma oscillon_m2f1_nonzero (r : float) :
  within_ulp r (5e-6 * 1.0 * (5e-6 * 1.0)) → (r =? 0)%float = false.
Proof. intros [->|[->| ->]]; lookup_now. Qed.

Lemma oscillon_g2_nonzero (r : float) :
  within_ulp r (2.8125e-6 * 2.8125e-6) → (5 * (r / 0.1) =? 0)%float = false.
Proof. intros [->|[->| ->]]; lookup_now. Qed.

(** Unpack the accuracy hypotheses: the values [**] returns and the
    facts the division tests need. *)
Ltac chaotic_unpack H r1 r2 r3 H1 H2 H3 U1 U2 N1 :=
  destruct H as ((r1 & H1 & U1) & (r2 & H2 & U2) & (r3 & H3));
  pose proof (chaotic_m2f1_nonzero r1 U1) as N1;
  vm_compute in H1, H2, H3, N1.

Ltac oscillon_unpack H r1 r2 H1 H2 U1 U2 N1 N2 :=
  destruct H as ((r1 & H1 & U1) & (r2 & H2 & U2));
  pose proof (oscillon_m2f1_nonzero r1 U1) as N1;
  pose proof (oscillon_g2_nonzero r2 U2) as N2;
  vm_compute in H1, H2, N1, N2.

(** Run a whole constructor whose [zetaQ] is [False]. *)
Ltac chaotic_construct rew :=
  unfold chaotic.Model, chaotic.Model_with, chaotic.__init__;
  eapply chaotic_run_skip; [expose_body; exec_block rew | lookup_now].

Ltac oscillon_construct rew :=
  unfold oscillon.Model, oscillon.Model_with, oscillon.__init__;
  eapply oscillon_run_skip; [expose_body; exec_block rew | lookup_now].

(** In [chaotic.py] the three per-field lists have one entry per field. *)
Lemma chaotic_field_arity (fpow : FloatPow) :
  chaotic_pow_ok →
  ∃ s, chaotic.Model = Returns s
       ∧ attr_len s "fields0" = Some 2
       ∧ attr_len s "pis0" = Some 2
       ∧ attr_len s "m2_fields" = Some 2.
Proof.
  intros H. chaotic_unpack H r1 r2 r3 H1 H2 H3 U1 U2 N1.
  eexists. split.
  - chaotic_construct ltac:(fun E => chaotic_rew H1 H2 H3 N1 E).
  - repeat split; lookup_now.
Qed.

(** C2, at [oscillon.py].  The constructed instance has one field and one
    initial derivative but two mass-squared entries: [m2_fields] still
    lists [m2f2], the mass of a second field the file does not have. *)
Theorem oscillon_field_arity (fpow : FloatPow) :
  oscillon_pow_ok →
  ∃ s, oscillon.Model = Returns s
       ∧ attr_len s "fields0" = Some 1
       ∧ attr_len s "pis0" = Some 1
       ∧ attr_len s "m2_fields" = Some 2.
Proof.
  intros H. oscillon_unpack H r1 r2 H1 H2 U1 U2 N1 N2.
  eexists. split.
  - oscillon_construct ltac:(fun E => oscillon_rew H1 H2 N1 N2 E).
  - repeat split; lookup_now.
Qed.

Lemma oscillon_field_arity_witness :
  ∃ s, @oscillon.Model RefPow.pow = Returns s
       ∧ attr_len s "fields0" = Some 1
       ∧ attr_len s "pis0" = Some 1
       ∧ attr_len s "m2_fields" = Some 2.
Proof. exact (oscillon_field_arity RefPow.pow ref_pow_oscillon_ok). Defined.

(** ** Potential terms and coefficients *)

(** C4.  In both constructed instances the number of distinct
    coefficient placeholders referenced across [V_list] and [V_int]
    together is the length of [C_coeff]. *)
Theorem placeholders_match_coefficients (fpow : FloatPow) :
  chaotic_pow_ok → oscillon_pow_ok →
  (∃ s vl vi cc, chaotic.Model = Returns s
     ∧ s !! "V_list" = Some (VList vl) ∧ s !! "V_int" = Some (VList vi)
     ∧ s !! "C_coeff" = Some (VList cc)
     ∧ length (referenced (vl ++ vi)) = length cc) ∧
  (∃ s vl vi cc, oscillon.Model = Returns s
     ∧ s !! "V_list" = Some (VList vl) ∧ s !! "V_int" = Some (VList vi)
     ∧ s !! "C_coeff" = Some (VList cc)
     ∧ length (referenced (vl ++ vi)) = length cc).
Proof.
  intros Hc Ho.
  chaotic_unpack Hc r1 r2 r3 H1 H2 H3 U1 U2 N1.
  oscillon_unpack Ho p1 p2 G1 G2 W1 W2 M1 M2.
  split.
  - eexists _, [VStr "0.5*C1*f1**2"; VStr "0.5*C2*f2**2"],
      [VStr "0.5*C3*f1**2*f2**2"],
      [VFloat r1; VFloat 0; VFloat (1e4 * r1)].
    split; [chaotic_construct ltac:(fun E => chaotic_rew H1 H2 H3 N1 E)|].
    repeat split; lookup_now.
  - eexists _, [VStr "0.5*C1*f1**2"],
      [VStr "(-0.25*C2*f1**4)"; VStr "0.16666666666666666*C3*f1**6"],
      [VFloat p1; VFloat 2.8125e-6; VFloat (p2 / 0.1 / p1)].
    split; [oscillon_construct ltac:(fun E => oscillon_rew G1 G2 M1 M2 E)|].
    repeat split; lookup_now.
Qed.

Lemma placeholders_match_coefficients_witness :
  (∃ s vl vi cc, @chaotic.Model RefPow.pow = Returns s
     ∧ s !! "V_list" = Some (VList vl) ∧ s !! "V_int" = Some (VList vi)
     ∧ s !! "C_coeff" = Some (VList cc)
     ∧ length (referenced (vl ++ vi)) = length cc) ∧
  (∃ s vl vi cc, @oscillon.Model RefPow.pow = Returns s
     ∧ s !! "V_list" = Some (VList vl) ∧ s !! "V_int" = Some (VList vi)
     ∧ s !! "C_coeff" = Some (VList cc)
     ∧ length (referenced (vl ++ vi)) = length cc).
Proof.
  exact (placeholders_match_coefficients RefPow.pow
           ref_pow_chaotic_ok ref_pow_oscillon_ok).
Defined.

(** ** The two presets *)

(** The resonance ratio of [chaotic.py] is positive however [**] rounds
    the two squares. *)
Lemma chaotic_q_positive (r1 r2 : float) :
  within_ulp r1 (1e-6 * 1.0 * (1e-6 * 1.0)) →
  within_ulp r2 (1.0093430384226378929425913902459
                 * 1.0093430384226378929425913902459) →
  (0 <? 1e4 * r1 * r2 / (4 * r1))%float = true.
Proof. intros [->|[->| ->]] [->|[->| ->]]; lookup_now. Qed.

(** C5.  [chaotic.Model()] has two fields; its mass unit [m] is [1e-6]
    times [mpl]; its [q] is [g2*f10**2/(4*m2f1)] and is positive; its
    [C_coeff] is the list [m2f1, m2f2, g2], in that order. *)
Theorem chaotic_preset (fpow : FloatPow) :
  chaotic_pow_ok →
  ∃ s mpl m2f1 m2f2 g2 f10 f10sq q,
    chaotic.Model = Returns s
    ∧ attr_len s "fields0" = Some 2
    ∧ s !! "mpl" = Some (VFloat mpl)
    ∧ s !! "m" = Some (VFloat (1e-6 * mpl))
    ∧ s !! "m2f1" = Some (VFloat m2f1)
    ∧ s !! "m2f2" = Some (VFloat m2f2)
    ∧ s !! "g2" = Some (VFloat g2)
    ∧ s !! "f10" = Some (VFloat f10)
    ∧ float_pow f10 2 = Returns f10sq
    ∧ q = (g2 * f10sq / (4 * m2f1))%float
    ∧ s !! "q" = Some (VFloat q)
    ∧ (0 <? q)%float = true
    ∧ s !! "C_coeff" = Some (VList [VFloat m2f1; VFloat m2f2; VFloat g2]).
Proof.
  intros H. chaotic_unpack H r1 r2 r3 H1 H2 H3 U1 U2 N1.
  eexists _, 1%float, r1, 0%float, (1e4 * r1)%float,
    1.0093430384226378929425913902459%float, r2, _.
  split; [chaotic_construct ltac:(fun E => chaotic_rew H1 H2 H3 N1 E)|].
  split; [lookup_now|]. split; [lookup_now|]. split; [lookup_now|].
  split; [lookup_now|]. split; [lookup_now|]. split; [lookup_now|].
  split; [lookup_now|]. split; [exact H2|]. split; [reflexivity|].
  split; [lookup_now|]. split; [|lookup_now].
  exact (chaotic_q_positive r1 r2 U1 U2).
Qed.

Lemma chaotic_preset_witness :
  ∃ s mpl m2f1 m2f2 g2 f10 f10sq q,
    @chaotic.Model RefPow.pow = Returns s
    ∧ attr_len s "fields0" = Some 2
    ∧ s !! "mpl" = Some (VFloat mpl)
    ∧ s !! "m" = Some (VFloat (1e-6 * mpl))
    ∧ s !! "m2f1" = Some (VFloat m2f1)
    ∧ s !! "m2f2" = Some (VFloat m2f2)
    ∧ s !! "g2" = Some (VFloat g2)
    ∧ s !! "f10" = Some (VFloat f10)
    ∧ RefPow.pow f10 2 = Returns f10sq
    ∧ q = (g2 * f10sq / (4 * m2f1))%float
    ∧ s !! "q" = Some (VFloat q)
    ∧ (0 <? q)%float = true
    ∧ s !! "C_coeff" = Some (VList [VFloat m2f1; VFloat m2f2; VFloat g2]).
Proof. exact (chaotic_preset RefPow.pow ref_pow_chaotic_ok). Defined.

(** C6.  [oscillon.Model()] has one field; [lamb] is the literal
    [2.8125e-6], [g2] is [lamb**2/0.1] and [f10] is
    [sqrt(3*lamb/(5*g2))*m]; [V_int] has two entries, whose placeholders
    are [C2] and [C3] respectively. *)
Theorem oscillon_preset (fpow : FloatPow) :
  oscillon_pow_ok →
  ∃ s m lamb lambsq g2 e1 e2,
    oscillon.Model = Returns s
    ∧ attr_len s "fields0" = Some 1
    ∧ s !! "m" = Some (VFloat m)
    ∧ lamb = 2.8125e-6%float
    ∧ s !! "lamb" = Some (VFloat lamb)
    ∧ float_pow lamb 2 = Returns lambsq
    ∧ g2 = (lambsq / 0.1)%float
    ∧ s !! "g2" = Some (VFloat g2)
    ∧ s !! "f10" = Some (VFloat (np_sqrt (3 * lamb / (5 * g2)) * m))
    ∧ s !! "fields0" = Some (VList [VFloat (np_sqrt (3 * lamb / (5 * g2)) * m)])
    ∧ s !! "V_int" = Some (VList [VStr e1; VStr e2])
    ∧ placeholders e1 = ["C2"]
    ∧ placeholders e2 = ["C3"].
Proof.
  intros H. oscillon_unpack H r1 r2 H1 H2 U1 U2 N1 N2.
  eexists _, (5e-6 * 1)%float, 2.8125e-6%float, r2, _,
    "(-0.25*C2*f1**4)", "0.16666666666666666*C3*f1**6".
  split; [oscillon_construct ltac:(fun E => oscillon_rew H1 H2 N1 N2 E)|].
  split; [lookup_now|]. split; [lookup_now|]. split; [reflexivity|].
  split; [lookup_now|]. split; [exact H2|]. split; [reflexivity|].
  repeat split; lookup_now.
Qed.

Lemma oscillon_preset_witness :
  ∃ s m lamb lambsq g2 e1 e2,
    @oscillon.Model RefPow.pow = Returns s
    ∧ attr_len s "fields0" = Some 1
    ∧ s !! "m" = Some (VFloat m)
    ∧ lamb = 2.8125e-6%float
    ∧ s !! "lamb" = Some (VFloat lamb)
    ∧ RefPow.pow lamb 2 = Returns lambsq
    ∧ g2 = (lambsq / 0.1)%float
    ∧ s !! "g2" = Some (VFloat g2)
    ∧ s !! "f10" = Some (VFloat (np_sqrt (3 * lamb / (5 * g2)) * m))
    ∧ s !! "fields0" = Some (VList [VFloat (np_sqrt (3 * lamb / (5 * g2)) * m)])
    ∧ s !! "V_int" = Some (VList [VStr e1; VStr e2])
    ∧ placeholders e1 = ["C2"]
    ∧ placeholders e2 = ["C3"].
Proof. exact (oscillon_preset RefPow.pow ref_pow_oscillon_ok). Defined.

(** ** The resonance ratio *)

Lemma chaotic_has_q (fpow : FloatPow) :
  chaotic_pow_ok →
  ∃ s m2f1 g2 f10 f10sq,
    chaotic.Model = Returns s
    ∧ s !! "m2f1" = Some (VFloat m2f1)
    ∧ s !! "g2" = Some (VFloat g2)
    ∧ s !! "f10" = Some (VFloat f10)
    ∧ float_pow f10 2 = Returns f10sq
    ∧ s !! "q" = Some (VFloat (g2 * f10sq / (4 * m2f1))).
Proof.
  intros H. chaotic_unpack H r1 r2 r3 H1 H2 H3 U1 U2 N1.
  eexists _, r1, (1e4 * r1)%float, 1.0093430384226378929425913902459%float, r2.
  split; [chaotic_construct ltac:(fun E => chaotic_rew H1 H2 H3 N1 E)|].
  split; [lookup_now|]. split; [lookup_now|]. split; [lookup_now|].
  split; [exact H2|lookup_now].
Qed.

(** [oscillon.py] never assigns [self.q]. *)
Lemma oscillon_lacks_q (fpow : FloatPow) :
  oscillon_pow_ok →
  ∃ s, oscillon.Model = Returns s ∧ s !! "q" = None.
Proof.
  intros H. oscillon_unpack H r1 r2 H1 H2 U1 U2 N1 N2.
  eexists. split; [oscillon_construct ltac:(fun E => oscillon_rew H1 H2 N1 N2 E)|].
  lookup_now.
Qed.

(** C7 as stated fails at the oscillon preset: the instance it
    constructs has no [q]. *)
Lemma oscillon_q_absent :
  ¬ ∃ s q, @oscillon.Model RefPow.pow = Returns s ∧ s !! "q" = Some q.
Proof.
  destruct (oscillon_lacks_q RefPow.pow ref_pow_oscillon_ok) as (s0 & E & Hn).
  intros (s & q & Hs & Hq). rewrite E in Hs. injection Hs as <-. congruence.
Qed.

(** C7, amended.  [chaotic.Model()] holds [q = g2*f10**2/(4*m2f1)];
    [oscillon.Model()] holds no [q]. *)
Theorem resonance_ratio_chaotic_only (fpow : FloatPow) :
  chaotic_pow_ok → oscillon_pow_ok →
  (∃ s m2f1 g2 f10 f10sq,
     chaotic.Model = Returns s
     ∧ s !! "m2f1" = Some (VFloat m2f1)
     ∧ s !! "g2" = Some (VFloat g2)
     ∧ s !! "f10" = Some (VFloat f10)
     ∧ float_pow f10 2 = Returns f10sq
     ∧ s !! "q" = Some (VFloat (g2 * f10sq / (4 * m2f1)))) ∧
  (∃ s, oscillon.Model = Returns s ∧ s !! "q" = None).
Proof.
  intros Hc Ho. split; [by apply chaotic_has_q | by apply oscillon_lacks_q].
Qed.

Lemma resonance_ratio_chaotic_only_witness :
  (∃ s m2f1 g2 f10 f10sq,
     @chaotic.Model RefPow.pow = Returns s
     ∧ s !! "m2f1" = Some (VFloat m2f1)
     ∧ s !! "g2" = Some (VFloat g2)
     ∧ s !! "f10" = Some (VFloat f10)
     ∧ RefPow.pow f10 2 = Returns f10sq
     ∧ s !! "q" = Some (VFloat (g2 * f10sq / (4 * m2f1)))) ∧
  (∃ s, @oscillon.Model RefPow.pow = Returns s ∧ s !! "q" = None).
Proof.
  exact (resonance_ratio_chaotic_only RefPow.pow
           ref_pow_chaotic_ok ref_pow_oscillon_ok).
Defined.

(** ** Validation *)

(** Neither constructor has a [raise]: whatever literal is put for the
    point count, construction returns, with that count. *)
Lemma chaotic_any_lattice_size (fpow : FloatPow) (v : PyVal) :
  chaotic_pow_ok →
  ∃ s, chaotic.Model_with "n" v = Returns s ∧ s !! "n" = Some v.
Proof.
  intros H. chaotic_unpack H r1 r2 r3 H1 H2 H3 U1 U2 N1.
  eexists. split; [chaotic_construct ltac:(fun E => chaotic_rew H1 H2 H3 N1 E)|].
  lookup_now.
Qed.

Lemma oscillon_any_lattice_size (fpow : FloatPow) (v : PyVal) :
  oscillon_pow_ok →
  ∃ s, oscillon.Model_with "n" v = Returns s ∧ s !! "n" = Some v.
Proof.
  intros H. oscillon_unpack H r1 r2 H1 H2 U1 U2 N1 N2.
  eexists. split; [oscillon_construct ltac:(fun E => oscillon_rew H1 H2 N1 N2 E)|].
  lookup_now.
Qed.

(** C3 as stated fails at [n = 100]: construction does not raise
    [InvalidLatticeSize]. *)
Lemma lattice_size_100_not_rejected :
  @chaotic.Model_with RefPow.pow "n" (VInt 100) ≠ Raises "InvalidLatticeSize".
Proof.
  destruct (chaotic_any_lattice_size RefPow.pow (VInt 100) ref_pow_chaotic_ok)
    as (s & E & _).
  rewrite E. discriminate.
Qed.

(** C3, amended.  The point count is not checked: with any integer
    [n], a power of two or not, both constructors return an instance
    holding that [n]. *)
Theorem lattice_size_unchecked (fpow : FloatPow) (n : Z) :
  chaotic_pow_ok → oscillon_pow_ok →
  (∃ s, chaotic.Model_with "n" (VInt n) = Returns s ∧ s !! "n" = Some (VInt n)) ∧
  (∃ s, oscillon.Model_with "n" (VInt n) = Returns s ∧ s !! "n" = Some (VInt n)).
Proof.
  intros Hc Ho.
  split; [by apply chaotic_any_lattice_size | by apply oscillon_any_lattice_size].
Qed.

Lemma lattice_size_unchecked_witness :
  (∃ s, @chaotic.Model_with RefPow.pow "n" (VInt 100) = Returns s
        ∧ s !! "n" = Some (VInt 100)) ∧
  (∃ s, @oscillon.Model_with RefPow.pow "n" (VInt 100) = Returns s
        ∧ s !! "n" = Some (VInt 100)).
Proof.
  exact (lattice_size_unchecked RefPow.pow 100
           ref_pow_chaotic_ok ref_pow_oscillon_ok).
Defined.

(** The same for the time steps and end times, none of which is read by a
    later assignment. *)
Lemma chaotic_any_time_parameter (fpow : FloatPow) (x : string) (v : PyVal) :
  chaotic_pow_ok → x ∈ time_parameters →
  ∃ s, chaotic.Model_with x v = Returns s ∧ s !! x = Some v.
Proof.
  intros H Hx. chaotic_unpack H r1 r2 r3 H1 H2 H3 U1 U2 N1.
  unfold time_parameters in Hx.
  repeat (apply elem_of_cons in Hx as [->|Hx]);
    [..|by apply elem_of_nil in Hx];
    (eexists; split;
     [chaotic_construct ltac:(fun E => chaotic_rew H1 H2 H3 N1 E)|lookup_now]).
Qed.

Lemma oscillon_any_time_parameter (fpow : FloatPow) (x : string) (v : PyVal) :
  oscillon_pow_ok → x ∈ time_parameters →
  ∃ s, oscillon.Model_with x v = Returns s ∧ s !! x = Some v.
Proof.
  intros H Hx. oscillon_unpack H r1 r2 H1 H2 U1 U2 N1 N2.
  unfold time_parameters in Hx.
  repeat (apply elem_of_cons in Hx as [->|Hx]);
    [..|by apply elem_of_nil in Hx];
    (eexists; split;
     [oscillon_construct ltac:(fun E => oscillon_rew H1 H2 N1 N2 E)|lookup_now]).
Qed.

(** C8 as stated fails at [dtau = 0]: construction does not raise
    [NonPositiveTimeParameter]. *)
Lemma zero_time_step_not_rejected :
  @chaotic.Model_with RefPow.pow "dtau" (VInt 0) ≠ Raises "NonPositiveTimeParameter".
Proof.
  destruct (chaotic_any_time_parameter RefPow.pow "dtau" (VInt 0) ref_pow_chaotic_ok)
    as (s & E & _); [unfold time_parameters; set_solver|].
  rewrite E. discriminate.
Qed.

(** C8, amended.  Time steps and end times are not checked: with any
    value, zero and negative ones included, put for [dtau], [dtau_hom],
    [t_fin] or [t_fin_hom], both constructors return an instance holding
    that value. *)
Theorem time_parameters_unchecked (fpow : FloatPow) (x : string) (v : PyVal) :
  chaotic_pow_ok → oscillon_pow_ok → x ∈ time_parameters →
  (∃ s, chaotic.Model_with x v = Returns s ∧ s !! x = Some v) ∧
  (∃ s, oscillon.Model_with x v = Returns s ∧ s !! x = Some v).
Proof.
  intros Hc Ho Hx.
  split; [by apply chaotic_any_time_parameter | by apply oscillon_any_time_parameter].
Qed.

Lemma time_parameters_unchecked_witness :
  (∃ s, @chaotic.Model_with RefPow.pow "dtau" (VFloat (-1)) = Returns s
        ∧ s !! "dtau" = Some (VFloat (-1))) ∧
  (∃ s, @oscillon.Model_with RefPow.pow "dtau" (VFloat (-1)) = Returns s
        ∧ s !! "dtau" = Some (VFloat (-1))).
Proof.
  refine (time_parameters_unchecked RefPow.pow "dtau" (VFloat (-1))
            ref_pow_chaotic_ok ref_pow_oscillon_ok _).
  unfold time_parameters. apply list_elem_of_here.
Defined.

(** ** Determinism *)

Lemma elem_of_rev_append (x : string) (l D : list string) :
  x ∈ rev_append l D ↔ x ∈ l ∨ x ∈ D.
Proof.
  revert D. induction l as [|y l IH]; intros D; simpl.
  - rewrite elem_of_nil. tauto.
  - rewrite IH, !elem_of_cons. tauto.
Qed.

Lemma agree_on_insert (D : list string) (s1 s2 : obj) (x : string) (v : PyVal) :
  agree_on D s1 s2 → agree_on (x :: D) (<[x := v]> s1) (<[x := v]> s2).
Proof.
  intros Hag y Hy. destruct (decide (x = y)) as [->|Hne].
  - by rewrite !lookup_insert_eq.
  - rewrite !lookup_insert_ne by done.
    apply Hag. apply elem_of_cons in Hy as [->|Hy]; [done|exact Hy].
Qed.

Lemma same_outcome_weaken (D D' : list string) (o1 o2 : outcome obj) :
  (∀ x, x ∈ D' → x ∈ D) → same_outcome D o1 o2 → same_outcome D' o1 o2.
Proof.
  intros Hsub. destruct o1, o2; simpl; try done.
  intros Hag x Hx. apply Hag, Hsub, Hx.
Qed.

(** Two runs of a block whose right-hand sides read only what the two
    instances agree on end alike, and agree on what the block assigned as
    well. *)
Lemma exec_agree (body : list stmt) :
  ∀ (D : list string) (s1 s2 : obj),
    reads_within D body → agree_on D s1 s2 →
    same_outcome (rev_append (targets body) D) (exec body s1) (exec body s2).
Proof.
  induction body as [|st rest IH]; intros D s1 s2 Hr Hag.
  - exact Hag.
  - destruct Hr as [Hv Hr]. simpl.
    rewrite (Hv s1 s2 Hag). destruct (value st s2) as [v|c]; simpl.
    + apply IH; [exact Hr | by apply agree_on_insert].
    + reflexivity.
Qed.

Lemma chaotic_zeta_block_reads (D : list string) : reads_within D chaotic.zeta_block.
Proof. simpl. repeat split. Qed.

Lemma oscillon_zeta_block_reads (D : list string) : reads_within D oscillon.zeta_block.
Proof. simpl. repeat split. Qed.

Lemma chaotic_run_agree (body : list stmt) (s1 s2 : obj) :
  reads_within [] body → "zetaQ" ∈ targets body →
  same_outcome (targets body) (chaotic.run body s1) (chaotic.run body s2).
Proof.
  intros Hr Hz.
  assert (Hex := exec_agree body [] s1 s2 Hr ltac:(by intros x Hx%elem_of_nil)).
  unfold chaotic.run.
  destruct (exec body s1) as [a|c1], (exec body s2) as [b|c2]; simpl in *; try done.
  unfold chaotic.zeta_rule, getattr.
  rewrite (Hex "zetaQ") by (apply elem_of_rev_append; by left).
  destruct (b !! "zetaQ") as [z|]; simpl; [|done].
  destruct (py_eq_bool z true).
  - eapply same_outcome_weaken;
      [|exact (exec_agree _ _ a b (chaotic_zeta_block_reads _) Hex)].
    intros x Hx. apply elem_of_rev_append. right.
    apply elem_of_rev_append. by left.
  - intros x Hx. apply Hex, elem_of_rev_append. by left.
Qed.

Lemma oscillon_run_agree (body : list stmt) (s1 s2 : obj) :
  reads_within [] body → "zetaQ" ∈ targets body →
  same_outcome (targets body) (oscillon.run body s1) (oscillon.run body s2).
Proof.
  intros Hr Hz.
  assert (Hex := exec_agree body [] s1 s2 Hr ltac:(by intros x Hx%elem_of_nil)).
  unfold oscillon.run.
  destruct (exec body s1) as [a|c1], (exec body s2) as [b|c2]; simpl in *; try done.
  unfold oscillon.zeta_rule, getattr.
  rewrite (Hex "zetaQ") by (apply elem_of_rev_append; by left).
  destruct (b !! "zetaQ") as [z|]; simpl; [|done].
  destruct (py_eq_bool z true).
  - eapply same_outcome_weaken;
      [|exact (exec_agree _ _ a b (oscillon_zeta_block_reads _) Hex)].
    intros x Hx. apply elem_of_rev_append. right.
    apply elem_of_rev_append. by left.
  - intros x Hx. apply Hex, elem_of_rev_append. by left.
Qed.

Ltac in_list := repeat first [apply list_elem_of_here | apply list_elem_of_further].

(** One right-hand side: every [self.x] it reads is among the attributes
    assigned before it. *)
Ltac read_stmt :=
  let s1 := fresh "s" in
  let s2 := fresh "s" in
  let Hag := fresh "Hag" in
  intros s1 s2 Hag; cbn [value]; unfold getf, getattr;
  repeat match goal with
         | |- context [s1 !! ?x] => rewrite (Hag x) by in_list
         end;
  reflexivity.

Ltac reads_ok :=
  lazymatch goal with
  | |- True => exact I
  | |- _ ∧ _ => split; [read_stmt | reads_ok]
  end.

Lemma chaotic_assignments_read (fpow : FloatPow) : reads_within [] chaotic.assignments.
Proof. unfold chaotic.assignments. cbn [reads_within target]. reads_ok. Qed.

Lemma oscillon_assignments_read (fpow : FloatPow) : reads_within [] oscillon.assignments.
Proof. unfold oscillon.assignments. cbn [reads_within target]. reads_ok. Qed.

(** C10.  Construction is a function of the constructor alone: run on
    any two receivers, whatever they held before, [__init__] ends alike,
    with the same exception or with instances equal at every attribute
    the constructor assigns; in both classes.  Nothing is read that the
    constructor did not assign itself, and nothing but the instance is
    written. *)
Theorem construction_deterministic (fpow : FloatPow) (self1 self2 : obj) :
  same_outcome (targets chaotic.assignments)
    (chaotic.__init__ self1) (chaotic.__init__ self2) ∧
  same_outcome (targets oscillon.assignments)
    (oscillon.__init__ self1) (oscillon.__init__ self2).
Proof.
  split.
  - apply chaotic_run_agree; [apply chaotic_assignments_read | vm_compute; in_list].
  - apply oscillon_run_agree; [apply oscillon_assignments_read | vm_compute; in_list].
Qed.

(** ** More on the curvature-perturbation rule *)

(** A block leaves alone what it does not assign. *)
Lemma exec_frame (body : list stmt) :
  ∀ (s s' : obj) (x : string),
    exec body s = Returns s' → x ∉ targets body → s' !! x = s !! x.
Proof.
  induction body as [|st rest IH]; intros s s' x He Hx; simpl in *.
  - by injection He as <-.
  - apply not_elem_of_cons in Hx as [Hne Hx].
    destruct (value st s) as [v|c]; simpl in He; [|discriminate].
    rewrite (IH _ _ _ He Hx). by apply lookup_insert_ne.
Qed.

(** The rule returns whenever [zetaQ] is bound, and touches only the
    attributes its block assigns: [zetaQ] itself, [gwsQ], [csvQ], the
    discretisation and every physical constant stay as they were. *)
Theorem zeta_rule_keeps_other_attributes (self : obj) (z : PyVal) :
  self !! "zetaQ" = Some z →
  (∃ s, chaotic.zeta_rule self = Returns s
        ∧ ∀ x, x ∉ targets chaotic.zeta_block → s !! x = self !! x) ∧
  (∃ s, oscillon.zeta_rule self = Returns s
        ∧ ∀ x, x ∉ targets oscillon.zeta_block → s !! x = self !! x).
Proof.
  intros Hz. split.
  - unfold chaotic.zeta_rule, getattr. rewrite Hz. simpl.
    destruct (py_eq_bool z true).
    + destruct (chaotic_zeta_block_run self) as (s & Hs & _).
      exists s. split; [exact Hs|]. intros x Hx. by apply (exec_frame _ _ _ _ Hs).
    + by exists self.
  - unfold oscillon.zeta_rule, getattr. rewrite Hz. simpl.
    destruct (py_eq_bool z true).
    + destruct (oscillon_zeta_block_run self) as (s & Hs & _).
      exists s. split; [exact Hs|]. intros x Hx. by apply (exec_frame _ _ _ _ Hs).
    + by exists self.
Qed.

Lemma zeta_rule_keeps_other_attributes_witness :
  let self : obj := <["zetaQ" := VBool true]> (<["gwsQ" := VBool true]> ∅) in
  (∃ s, chaotic.zeta_rule self = Returns s
        ∧ ∀ x, x ∉ targets chaotic.zeta_block → s !! x = self !! x) ∧
  (∃ s, oscillon.zeta_rule self = Returns s
        ∧ ∀ x, x ∉ targets oscillon.zeta_block → s !! x = self !! x).
Proof.
  intros self. apply (zeta_rule_keeps_other_attributes self (VBool true)).
  reflexivity.
Defined.

(** A block of the rule, run on its own result, changes nothing. *)
Lemma chaotic_zeta_block_twice (self s : obj) :
  exec chaotic.zeta_block self = Returns s → exec chaotic.zeta_block s = Returns s.
Proof.
  intros Hs. destruct (chaotic_zeta_block_run self) as (s' & Hs' & Hf & Hq).
  rewrite Hs in Hs'. injection Hs' as Heq. subst s'.
  destruct Hf as (F1 & F2 & F3 & F4 & F5 & F6 & F7 & F8 & F9 & F10 & F11).
  assert (Hh : s !! "flush_freq_hom" = Some (VInt (128 * 8))).
  { simpl in Hs. injection Hs as <-. by simplify_map_eq. }
  simpl. f_equal.
  repeat match goal with
         | |- context [<[?k := ?v]> s] => rewrite (insert_id s k v) by assumption
         end.
  reflexivity.
Qed.

Lemma oscillon_zeta_block_twice (self s : obj) :
  exec oscillon.zeta_block self = Returns s → exec oscillon.zeta_block s = Returns s.
Proof.
  intros Hs. destruct (oscillon_zeta_block_run self) as (s' & Hs' & Hf & Hq).
  rewrite Hs in Hs'. injection Hs' as Heq. subst s'.
  destruct Hf as (F1 & F2 & F3 & F4 & F5 & F6 & F7 & F8 & F9 & F10 & F11).
  simpl. f_equal.
  repeat match goal with
         | |- context [<[?k := ?v]> s] => rewrite (insert_id s k v) by assumption
         end.
  reflexivity.
Qed.

(** The rule is idempotent: it does not change [zetaQ], so a second pass
    takes the same branch and assigns the same values. *)
Theorem zeta_rule_idempotent (self : obj) (z : PyVal) :
  self !! "zetaQ" = Some z →
  (∃ s, chaotic.zeta_rule self = Returns s ∧ chaotic.zeta_rule s = Returns s) ∧
  (∃ s, oscillon.zeta_rule self = Returns s ∧ oscillon.zeta_rule s = Returns s).
Proof.
  intros Hz. split.
  - unfold chaotic.zeta_rule at 1. unfold getattr. rewrite Hz. simpl.
    destruct (py_eq_bool z true) eqn:Hb.
    + destruct (chaotic_zeta_block_run self) as (s & Hs & _).
      exists s. split; [exact Hs|].
      assert (Hz' : s !! "zetaQ" = Some z).
      { rewrite (exec_frame _ _ _ "zetaQ" Hs); [exact Hz|compute_done]. }
      unfold chaotic.zeta_rule, getattr. rewrite Hz'. simpl. rewrite Hb.
      by apply (chaotic_zeta_block_twice self).
    + exists self. split; [done|].
      unfold chaotic.zeta_rule, getattr. rewrite Hz. simpl. by rewrite Hb.
  - unfold oscillon.zeta_rule at 1. unfold getattr. rewrite Hz. simpl.
    destruct (py_eq_bool z true) eqn:Hb.
    + destruct (oscillon_zeta_block_run self) as (s & Hs & _).
      exists s. split; [exact Hs|].
      assert (Hz' : s !! "zetaQ" = Some z).
      { rewrite (exec_frame _ _ _ "zetaQ" Hs); [exact Hz|compute_done]. }
      unfold oscillon.zeta_rule, getattr. rewrite Hz'. simpl. rewrite Hb.
      by apply (oscillon_zeta_block_twice self).
    + exists self. split; [done|].
      unfold oscillon.zeta_rule, getattr. rewrite Hz. simpl. by rewrite Hb.
Qed.

Lemma zeta_rule_idempotent_witness :
  let self : obj := <["zetaQ" := VBool true]> (<["evoQ" := VBool true]> ∅) in
  (∃ s, chaotic.zeta_rule self = Returns s ∧ chaotic.zeta_rule s = Returns s) ∧
  (∃ s, oscillon.zeta_rule self = Returns s ∧ oscillon.zeta_rule s = Returns s).
Proof.
  intros self. apply (zeta_rule_idempotent self (VBool true)). reflexivity.
Defined.

(** The two files' rules differ in one assignment: [chaotic.py] also
    resets [flush_freq_hom] to [128*8], [oscillon.py] leaves it as it
    was. *)
Theorem zeta_rules_differ_in_flush_freq_hom (self : obj) :
  self !! "zetaQ" = Some (VBool true) →
  ∃ s, oscillon.zeta_rule self = Returns s
       ∧ s !! "flush_freq_hom" = self !! "flush_freq_hom"
       ∧ chaotic.zeta_rule self = Returns (<["flush_freq_hom" := VInt (128 * 8)]> s).
Proof.
  intros Hz.
  rewrite (chaotic_zeta_rule_fires self Hz), (oscillon_zeta_rule_fires self Hz).
  destruct (oscillon_zeta_block_run self) as (s & Hs & _).
  exists s. split; [exact Hs|]. split.
  - apply (exec_frame _ _ _ _ Hs). compute_done.
  - simpl in Hs. injection Hs as <-. simpl. f_equal.
    rewrite (insert_insert_ne _ "flush_freq_hom" "saveQ") by done.
    rewrite (insert_insert_ne _ "flush_freq_hom" "superfolderQ") by done.
    reflexivity.
Qed.

Lemma zeta_rules_differ_in_flush_freq_hom_witness :
  let self : obj := <["zetaQ" := VBool true]> (<["flush_freq_hom" := VInt (128 * 20)]> ∅) in
  ∃ s, oscillon.zeta_rule self = Returns s
       ∧ s !! "flush_freq_hom" = self !! "flush_freq_hom"
       ∧ chaotic.zeta_rule self = Returns (<["flush_freq_hom" := VInt (128 * 8)]> s).
Proof.
  intros self. apply (zeta_rules_differ_in_flush_freq_hom self). reflexivity.
Defined.

(** The test is [== True], not [is True]: a [zetaQ] of [1] or [1.0]
    switches the rule on as well. *)
Theorem zeta_rule_fires_on_one (self : obj) (z : PyVal) :
  self !! "zetaQ" = Some z →
  z = VInt 1 ∨ z = VFloat 1 →
  (∃ s, chaotic.zeta_rule self = Returns s ∧ zeta_forced s) ∧
  (∃ s, oscillon.zeta_rule self = Returns s ∧ zeta_forced s).
Proof.
  intros Hz Hone. split.
  - destruct (chaotic_zeta_block_run self) as (s & Hs & Hf & _).
    exists s. split; [|exact Hf].
    unfold chaotic.zeta_rule, getattr. rewrite Hz. by destruct Hone as [-> | ->].
  - destruct (oscillon_zeta_block_run self) as (s & Hs & Hf & _).
    exists s. split; [|exact Hf].
    unfold oscillon.zeta_rule, getattr. rewrite Hz. by destruct Hone as [-> | ->].
Qed.

Lemma zeta_rule_fires_on_one_witness :
  let self : obj := <["zetaQ" := VInt 1]> ∅ in
  (∃ s, chaotic.zeta_rule self = Returns s ∧ zeta_forced s) ∧
  (∃ s, oscillon.zeta_rule self = Returns s ∧ zeta_forced s).
Proof.
  intros self. apply (zeta_rule_fires_on_one self (VInt 1)); [reflexivity | by left].
Defined.

(** No other value does: with [zetaQ] bound to [False], [None], a string
    (the string ["True"] included), a list, or an integer other than [1],
    the rule returns the instance as it is. *)
Theorem zeta_rule_ignores_other_values (self : obj) (z : PyVal) :
  self !! "zetaQ" = Some z →
  z = VBool false ∨ non_numeric z ∨ (∃ n, z = VInt n ∧ n ≠ 1%Z) →
  chaotic.zeta_rule self = Returns self ∧ oscillon.zeta_rule self = Returns self.
Proof.
  intros Hz Hv.
  assert (Hb : py_eq_bool z true = false).
  { destruct Hv as [-> | [[-> | [[t ->] | [l ->]]] | (n & -> & Hn)]]; try reflexivity.
    simpl. by apply Z.eqb_neq. }
  unfold chaotic.zeta_rule, oscillon.zeta_rule, getattr. rewrite Hz. simpl.
  by rewrite Hb.
Qed.

Lemma zeta_rule_ignores_other_values_witness :
  let self : obj := <["zetaQ" := VStr "True"]> ∅ in
  chaotic.zeta_rule self = Returns self ∧ oscillon.zeta_rule self = Returns self.
Proof.
  intros self. apply (zeta_rule_ignores_other_values self (VStr "True")).
  - reflexivity.
  - right. left. right. left. by exists "True".
Defined.

(** ** Changing a value *)

(** Once [x] holds the new value, the rest of a body that does not read
    [x] runs as before. *)
Lemma exec_set_literal_after (x : string) (v : PyVal) (body : list stmt) :
  unread x body →
  ∀ (self s : obj),
    exec body self = Returns s →
    exec (set_literal x v body) (<[x := v]> self) = Returns (<[x := v]> s).
Proof.
  induction 1 as [|st rest Hst Hrest IH]; intros self s He; simpl in *.
  - by injection He as <-.
  - destruct (value st self) as [u|c] eqn:Hu; simpl in He; [|discriminate].
    destruct (String.eqb (target st) x) eqn:Hx; simpl.
    + apply String.eqb_eq in Hx. rewrite insert_insert_eq.
      rewrite <- (insert_insert_eq self x v u).
      apply IH. by rewrite <- Hx.
    + apply String.eqb_neq in Hx. rewrite Hst, Hu. simpl.
      rewrite insert_insert_ne by done. by apply IH.
Qed.

(** Changing the value assigned to an attribute that is assigned and that
    nothing after reads changes that attribute and nothing else. *)
Lemma exec_set_literal (x : string) (v : PyVal) (body : list stmt) :
  unread x body → x ∈ targets body →
  ∀ (self s : obj),
    exec body self = Returns s →
    exec (set_literal x v body) self = Returns (<[x := v]> s).
Proof.
  induction 1 as [|st rest Hst Hrest IH]; intros Hin self s He; simpl in *.
  - by apply elem_of_nil in Hin.
  - destruct (value st self) as [u|c] eqn:Hu; simpl in He; [|discriminate].
    destruct (String.eqb (target st) x) eqn:Hx; simpl.
    + apply String.eqb_eq in Hx.
      rewrite <- (insert_insert_eq self x v u).
      apply exec_set_literal_after; [exact Hrest|]. by rewrite <- Hx.
    + apply String.eqb_neq in Hx. rewrite Hu. simpl.
      apply IH; [|exact He].
      apply elem_of_cons in Hin as [Heq|Hin]; [by symmetry in Heq|exact Hin].
Qed.

(** One right-hand side does not depend on [x], an attribute outside the
    list of those read. *)
Ltac unread_stmt Hx :=
  let s := fresh "s" in
  let w := fresh "w" in
  intros s w; cbn [value]; unfold getf, getattr;
  repeat rewrite lookup_insert_ne by (intros ->; apply Hx; vm_compute; in_list);
  reflexivity.

Ltac unread_ok Hx :=
  lazymatch goal with
  | |- Forall _ [] => constructor
  | |- Forall _ (_ :: _) => constructor; [unread_stmt Hx | unread_ok Hx]
  end.

Lemma chaotic_unread (fpow : FloatPow) (x : string) :
  x ∉ chaotic_reads → unread x chaotic.assignments.
Proof. intros Hx. unfold unread, chaotic.assignments. unread_ok Hx. Qed.

Lemma oscillon_unread (fpow : FloatPow) (x : string) :
  x ∉ oscillon_reads → unread x oscillon.assignments.
Proof. intros Hx. unfold unread, oscillon.assignments. unread_ok Hx. Qed.

Lemma chaotic_body_returns (fpow : FloatPow) :
  chaotic_pow_ok →
  ∃ mid, exec chaotic.assignments ∅ = Returns mid
         ∧ mid !! "zetaQ" = Some (VBool false).
Proof.
  intros H. chaotic_unpack H r1 r2 r3 H1 H2 H3 U1 U2 N1.
  eexists. split;
    [expose_body; exec_block ltac:(fun E => chaotic_rew H1 H2 H3 N1 E)|lookup_now].
Qed.

Lemma oscillon_body_returns (fpow : FloatPow) :
  oscillon_pow_ok →
  ∃ mid, exec oscillon.assignments ∅ = Returns mid
         ∧ mid !! "zetaQ" = Some (VBool false).
Proof.
  intros H. oscillon_unpack H r1 r2 H1 H2 U1 U2 N1 N2.
  eexists. split;
    [expose_body; exec_block ltac:(fun E => oscillon_rew H1 H2 N1 N2 E)|lookup_now].
Qed.

(** In [chaotic.py], changing the value assigned to any attribute that no
    right-hand side and not the rule reads (every flag, [n], [L], the time
    steps and end times, the expression lists, ...) changes that attribute
    of the constructed instance and nothing else. *)
Theorem chaotic_unread_value_changes_only_itself
    (fpow : FloatPow) (x : string) (v : PyVal) :
  chaotic_pow_ok →
  x ∈ targets chaotic.assignments → x ∉ chaotic_reads → x ≠ "zetaQ" →
  ∃ s, chaotic.Model = Returns s
       ∧ chaotic.Model_with x v = Returns (<[x := v]> s).
Proof.
  intros H Hin Hx Hz.
  destruct (chaotic_body_returns fpow H) as (mid & Hm & Hq).
  exists mid. split.
  - by apply chaotic_run_skip.
  - apply chaotic_run_skip.
    + apply exec_set_literal; [by apply chaotic_unread | exact Hin | exact Hm].
    + by rewrite lookup_insert_ne.
Qed.

Lemma chaotic_unread_value_changes_only_itself_witness :
  ∃ s, @chaotic.Model RefPow.pow = Returns s
       ∧ @chaotic.Model_with RefPow.pow "L" (VFloat 1) = Returns (<["L" := VFloat 1]> s).
Proof.
  apply (chaotic_unread_value_changes_only_itself RefPow.pow "L" (VFloat 1)
           ref_pow_chaotic_ok).
  - vm_compute. in_list.
  - compute_done.
  - discriminate.
Defined.

(** The same in [oscillon.py]. *)
Theorem oscillon_unread_value_changes_only_itself
    (fpow : FloatPow) (x : string) (v : PyVal) :
  oscillon_pow_ok →
  x ∈ targets oscillon.assignments → x ∉ oscillon_reads → x ≠ "zetaQ" →
  ∃ s, oscillon.Model = Returns s
       ∧ oscillon.Model_with x v = Returns (<[x := v]> s).
Proof.
  intros H Hin Hx Hz.
  destruct (oscillon_body_returns fpow H) as (mid & Hm & Hq).
  exists mid. split.
  - by apply oscillon_run_skip.
  - apply oscillon_run_skip.
    + apply exec_set_literal; [by apply oscillon_unread | exact Hin | exact Hm].
    + by rewrite lookup_insert_ne.
Qed.

Lemma oscillon_unread_value_changes_only_itself_witness :
  ∃ s, @oscillon.Model RefPow.pow = Returns s
       ∧ @oscillon.Model_with RefPow.pow "n" (VInt 256) = Returns (<["n" := VInt 256]> s).
Proof.
  apply (oscillon_unread_value_changes_only_itself RefPow.pow "n" (VInt 256)
           ref_pow_oscillon_ok).
  - vm_compute. in_list.
  - compute_done.
  - discriminate.
Defined.

(** Setting [self.zetaQ = True] in either file yields the preset with
    the rule applied: the forced flags, [zetaQ] [True], and every other
    attribute as in the unchanged preset. *)
Theorem zeta_mode_of_presets (fpow : FloatPow) :
  chaotic_pow_ok → oscillon_pow_ok →
  (∃ s0 s, chaotic.Model = Returns s0
     ∧ chaotic.Model_with "zetaQ" (VBool true) = Returns s
     ∧ zeta_forced s ∧ s !! "zetaQ" = Some (VBool true)
     ∧ ∀ x, x ∉ "zetaQ" :: targets chaotic.zeta_block → s !! x = s0 !! x) ∧
  (∃ s0 s, oscillon.Model = Returns s0
     ∧ oscillon.Model_with "zetaQ" (VBool true) = Returns s
     ∧ zeta_forced s ∧ s !! "zetaQ" = Some (VBool true)
     ∧ ∀ x, x ∉ "zetaQ" :: targets oscillon.zeta_block → s !! x = s0 !! x).
Proof.
  intros Hc Ho. split.
  - destruct (chaotic_body_returns fpow Hc) as (mid & Hm & Hq).
    assert (Hm' : exec (set_literal "zetaQ" (VBool true) chaotic.assignments) ∅
                  = Returns (<["zetaQ" := VBool true]> mid)).
    { apply exec_set_literal; [|vm_compute; in_list|exact Hm].
      apply chaotic_unread. compute_done. }
    destruct (chaotic_zeta_block_run (<["zetaQ" := VBool true]> mid))
      as (s & Hs & Hf & _).
    exists mid, s. split; [by apply chaotic_run_skip|].
    split; [|split; [exact Hf|]].
    + unfold chaotic.Model_with.
      rewrite (chaotic_run_fires _ _ _ Hm'); [exact Hs|by rewrite lookup_insert_eq].
    + assert (Hfr : ∀ x, x ∉ targets chaotic.zeta_block
                         → s !! x = <["zetaQ" := VBool true]> mid !! x)
        by (intros x Hx; by apply (exec_frame _ _ _ _ Hs)).
      split.
      * rewrite Hfr; [by rewrite lookup_insert_eq|compute_done].
      * intros x [Hne Hx]%not_elem_of_cons. rewrite (Hfr x Hx).
        by rewrite lookup_insert_ne.
  - destruct (oscillon_body_returns fpow Ho) as (mid & Hm & Hq).
    assert (Hm' : exec (set_literal "zetaQ" (VBool true) oscillon.assignments) ∅
                  = Returns (<["zetaQ" := VBool true]> mid)).
    { apply exec_set_literal; [|vm_compute; in_list|exact Hm].
      apply oscillon_unread. compute_done. }
    destruct (oscillon_zeta_block_run (<["zetaQ" := VBool true]> mid))
      as (s & Hs & Hf & _).
    exists mid, s. split; [by apply oscillon_run_skip|].
    split; [|split; [exact Hf|]].
    + unfold oscillon.Model_with.
      rewrite (oscillon_run_fires _ _ _ Hm'); [exact Hs|by rewrite lookup_insert_eq].
    + assert (Hfr : ∀ x, x ∉ targets oscillon.zeta_block
                         → s !! x = <["zetaQ" := VBool true]> mid !! x)
        by (intros x Hx; by apply (exec_frame _ _ _ _ Hs)).
      split.
      * rewrite Hfr; [by rewrite lookup_insert_eq|compute_done].
      * intros x [Hne Hx]%not_elem_of_cons. rewrite (Hfr x Hx).
        by rewrite lookup_insert_ne.
Qed.

Lemma zeta_mode_of_presets_witness :
  (∃ s0 s, @chaotic.Model RefPow.pow = Returns s0
     ∧ @chaotic.Model_with RefPow.pow "zetaQ" (VBool true) = Returns s
     ∧ zeta_forced s ∧ s !! "zetaQ" = Some (VBool true)
     ∧ ∀ x, x ∉ "zetaQ" :: targets chaotic.zeta_block → s !! x = s0 !! x) ∧
  (∃ s0 s, @oscillon.Model RefPow.pow = Returns s0
     ∧ @oscillon.Model_with RefPow.pow "zetaQ" (VBool true) = Returns s
     ∧ zeta_forced s ∧ s !! "zetaQ" = Some (VBool true)
     ∧ ∀ x, x ∉ "zetaQ" :: targets oscillon.zeta_block → s !! x = s0 !! x).
Proof.
  exact (zeta_mode_of_presets RefPow.pow ref_pow_chaotic_ok ref_pow_oscillon_ok).
Defined.

(** ** Values the constructors cannot digest *)

Lemma exec_raises st rest self c :
  value st self = Raises c → exec (st :: rest) self = Raises c.
Proof. intros E. simpl. rewrite E. reflexivity. Qed.

Lemma chaotic_run_raises (body : list stmt) (self : obj) (c : string) :
  exec body self = Raises c → chaotic.run body self = Raises c.
Proof. intros E. unfold chaotic.run. rewrite E. reflexivity. Qed.

Lemma oscillon_run_raises (body : list stmt) (self : obj) (c : string) :
  exec body self = Raises c → oscillon.run body self = Raises c.
Proof. intros E. unfold oscillon.run. rewrite E. reflexivity. Qed.

(** Run a block up to the assignment that raises. *)
Ltac exec_fail rew :=
  repeat exec_step rew;
  lazymatch goal with
  | |- exec (?st :: ?rest) ?self = _ =>
      let E := fresh "E" in
      let r := eval vm_compute in (value st self) in
      assert (E : value st self = r) by (vm_compute; reflexivity);
      rew E;
      exact (exec_raises st rest self _ E)
  end.

Ltac zero_rew H0 H2 H3 N E :=
  rewrite ?H0, ?H2, ?H3, ?N in E; cbv beta iota in E.

(** A mass unit of zero is not rejected as such: [self.m**2] is then
    zero, and construction stops at the first division by it, the [q] of
    [chaotic.py] and the [C_coeff] of [oscillon.py] at the latest, with
    [ZeroDivisionError]. *)
Theorem zero_mass_unit_divides_by_zero (fpow : FloatPow) (v : PyVal) :
  v = VFloat 0 ∨ v = VInt 0 →
  float_pow 0 2 = Returns 0%float →
  returns_at 1.0093430384226378929425913902459 2 →
  returns_at 10 (-20) →
  returns_at 2.8125e-6 2 →
  chaotic.Model_with "m" v = Raises "ZeroDivisionError" ∧
  oscillon.Model_with "m" v = Raises "ZeroDivisionError".
Proof.
  intros Hv H0 (r2 & H2) (r3 & H3) (p2 & G2).
  vm_compute in H0, H2, H3, G2.
  split.
  - unfold chaotic.Model_with. apply chaotic_run_raises. expose_body.
    destruct Hv as [-> | ->];
      exec_fail ltac:(fun E => zero_rew H0 H2 H3 H0 E).
  - unfold oscillon.Model_with. apply oscillon_run_raises. expose_body.
    destruct (5 * (p2 / 0.1) =? 0)%float eqn:N; vm_compute in N;
      destruct Hv as [-> | ->];
      exec_fail ltac:(fun E => zero_rew H0 G2 H0 N E).
Qed.

Lemma zero_mass_unit_divides_by_zero_witness :
  @chaotic.Model_with RefPow.pow "m" (VFloat 0) = Raises "ZeroDivisionError" ∧
  @oscillon.Model_with RefPow.pow "m" (VFloat 0) = Raises "ZeroDivisionError".
Proof.
  apply (zero_mass_unit_divides_by_zero RefPow.pow (VFloat 0)).
  - by left.
  - lookup_now.
  - eexists. lookup_now.
  - eexists. lookup_now.
  - eexists. lookup_now.
Defined.

(** A mass unit that is [None], a string or a list stops construction at
    [self.m**2.], the first arithmetic on it, with [TypeError]; whatever
    [**] does elsewhere. *)
Theorem non_numeric_mass_unit_type_error (fpow : FloatPow) (v : PyVal) :
  non_numeric v →
  chaotic.Model_with "m" v = Raises "TypeError" ∧
  oscillon.Model_with "m" v = Raises "TypeError".
Proof.
  intros Hv. split.
  - unfold chaotic.Model_with. apply chaotic_run_raises. expose_body.
    destruct Hv as [-> | [[t ->] | [l ->]]]; exec_fail no_pow.
  - unfold oscillon.Model_with. apply oscillon_run_raises. expose_body.
    destruct Hv as [-> | [[t ->] | [l ->]]]; exec_fail no_pow.
Qed.

Lemma non_numeric_mass_unit_type_error_witness :
  @chaotic.Model_with RefPow.pow "m" (VStr "1e-6") = Raises "TypeError" ∧
  @oscillon.Model_with RefPow.pow "m" (VStr "1e-6") = Raises "TypeError".
Proof.
  apply (non_numeric_mass_unit_type_error RefPow.pow (VStr "1e-6")).
  right. left. by exists "1e-6".
Defined.

(** ** Constructing over an existing instance *)

Lemma chaotic_reinit (fpow : FloatPow) (self mid : obj) :
  exec chaotic.assignments ∅ = Returns mid →
  ∃ s, exec chaotic.assignments self = Returns s
       ∧ ∀ x, x ∈ targets chaotic.assignments → s !! x = mid !! x.
Proof.
  intros Hm.
  assert (Hex := exec_agree chaotic.assignments [] self ∅
                   (chaotic_assignments_read fpow) ltac:(by intros x Hx%elem_of_nil)).
  rewrite Hm in Hex. destruct (exec chaotic.assignments self) as [s|c]; [|done].
  exists s. split; [done|]. intros x Hx. apply Hex, elem_of_rev_append. by left.
Qed.

Lemma oscillon_reinit (fpow : FloatPow) (self mid : obj) :
  exec oscillon.assignments ∅ = Returns mid →
  ∃ s, exec oscillon.assignments self = Returns s
       ∧ ∀ x, x ∈ targets oscillon.assignments → s !! x = mid !! x.
Proof.
  intros Hm.
  assert (Hex := exec_agree oscillon.assignments [] self ∅
                   (oscillon_assignments_read fpow) ltac:(by intros x Hx%elem_of_nil)).
  rewrite Hm in Hex. destruct (exec oscillon.assignments self) as [s|c]; [|done].
  exists s. split; [done|]. intros x Hx. apply Hex, elem_of_rev_append. by left.
Qed.

(** [__init__] run on an instance that already holds attributes (a
    second call, a subclass that set its own first) succeeds, gives every
    attribute it assigns the value a fresh [Model()] has, and leaves every
    other attribute of the instance as it was. *)
Theorem reinit_overwrites_and_keeps (fpow : FloatPow) (self : obj) :
  chaotic_pow_ok → oscillon_pow_ok →
  (∃ s0 s, chaotic.Model = Returns s0 ∧ chaotic.__init__ self = Returns s
     ∧ (∀ x, x ∈ targets chaotic.assignments → s !! x = s0 !! x)
     ∧ (∀ x, x ∉ targets chaotic.assignments → s !! x = self !! x)) ∧
  (∃ s0 s, oscillon.Model = Returns s0 ∧ oscillon.__init__ self = Returns s
     ∧ (∀ x, x ∈ targets oscillon.assignments → s !! x = s0 !! x)
     ∧ (∀ x, x ∉ targets oscillon.assignments → s !! x = self !! x)).
Proof.
  intros Hc Ho. split.
  - destruct (chaotic_body_returns fpow Hc) as (mid & Hm & Hq).
    destruct (chaotic_reinit fpow self mid Hm) as (s & Hs & Hag).
    exists mid, s. split; [by apply chaotic_run_skip|].
    split; [|split; [exact Hag|]].
    + apply chaotic_run_skip; [exact Hs|].
      rewrite Hag; [exact Hq|compute_done].
    + intros x Hx. by apply (exec_frame _ _ _ _ Hs).
  - destruct (oscillon_body_returns fpow Ho) as (mid & Hm & Hq).
    destruct (oscillon_reinit fpow self mid Hm) as (s & Hs & Hag).
    exists mid, s. split; [by apply oscillon_run_skip|].
    split; [|split; [exact Hag|]].
    + apply oscillon_run_skip; [exact Hs|].
      rewrite Hag; [exact Hq|compute_done].
    + intros x Hx. by apply (exec_frame _ _ _ _ Hs).
Qed.

Lemma reinit_overwrites_and_keeps_witness :
  let self : obj := <["n" := VInt 100]> (<["label" := VStr "run 7"]> ∅) in
  (∃ s0 s, @chaotic.Model RefPow.pow = Returns s0
     ∧ @chaotic.__init__ RefPow.pow self = Returns s
     ∧ (∀ x, x ∈ targets (@chaotic.assignments RefPow.pow) → s !! x = s0 !! x)
     ∧ (∀ x, x ∉ targets (@chaotic.assignments RefPow.pow) → s !! x = self !! x)) ∧
  (∃ s0 s, @oscillon.Model RefPow.pow = Returns s0
     ∧ @oscillon.__init__ RefPow.pow self = Returns s
     ∧ (∀ x, x ∈ targets (@oscillon.assignments RefPow.pow) → s !! x = s0 !! x)
     ∧ (∀ x, x ∉ targets (@oscillon.assignments RefPow.pow) → s !! x = self !! x)).
Proof.
  intros self.
  exact (reinit_overwrites_and_keeps RefPow.pow self
           ref_pow_chaotic_ok ref_pow_oscillon_ok).
Defined.

(** ** What depends on the power operator *)

Lemma lookup_deletes (l : list string) (m : obj) (x : string) :
  x ∉ l → foldr delete m l !! x = m !! x.
Proof.
  induction l as [|y l IH]; intros Hx; simpl; [done|].
  apply not_elem_of_cons in Hx as [Hne Hx].
  rewrite lookup_delete_ne by done. by apply IH.
Qed.

Lemma pow_rounded_up_squares (x : float) :
  pow_rounded_up x 2%float = Returns (next_up (x * x))%float →
  @squares_at pow_rounded_up x.
Proof.
  intros E. exists (next_up (x * x))%float. split; [exact E | right; right; reflexivity].
Qed.

Lemma pow_rounded_up_chaotic_ok : @chaotic_pow_ok pow_rounded_up.
Proof.
  split; [|split].
  - apply pow_rounded_up_squares. lookup_now.
  - apply pow_rounded_up_squares. lookup_now.
  - exists 1e-20%float. lookup_now.
Qed.

Lemma pow_rounded_up_oscillon_ok : @oscillon_pow_ok pow_rounded_up.
Proof.
  split.
  - apply pow_rounded_up_squares. lookup_now.
  - apply pow_rounded_up_squares. lookup_now.
Qed.

(** Two maps that are equal once the attributes [dep] are deleted agree
    outside [dep]. *)
Ltac agree_outside dep :=
  let x := fresh "x" in
  let Hx := fresh "Hx" in
  intros x Hx;
  lazymatch goal with
  | |- ?a !! x = ?b !! x =>
      rewrite <- (lookup_deletes dep a x Hx), <- (lookup_deletes dep b x Hx);
      f_equal; vm_compute; reflexivity
  end.

(** Under two power operators, each accurate to one unit in the last
    place but rounding differently, the two constructed instances can
    differ only in the attributes computed with [**]: the masses squared,
    the couplings and the lists and ratios built from them.  Every other
    attribute, the time steps, lattice, end times and flags among them, is
    the same. *)
Theorem pow_independent_attributes (fpow1 fpow2 : FloatPow) :
  @chaotic_pow_ok fpow1 → @chaotic_pow_ok fpow2 →
  @oscillon_pow_ok fpow1 → @oscillon_pow_ok fpow2 →
  (∃ s1 s2, @chaotic.Model fpow1 = Returns s1 ∧ @chaotic.Model fpow2 = Returns s2
     ∧ ∀ x, x ∉ chaotic_pow_dependent → s1 !! x = s2 !! x) ∧
  (∃ s1 s2, @oscillon.Model fpow1 = Returns s1 ∧ @oscillon.Model fpow2 = Returns s2
     ∧ ∀ x, x ∉ oscillon_pow_dependent → s1 !! x = s2 !! x).
Proof.
  intros Hc1 Hc2 Ho1 Ho2. split.
  - chaotic_unpack Hc1 a1 a2 a3 A1 A2 A3 UA1 UA2 NA.
    chaotic_unpack Hc2 b1 b2 b3 B1 B2 B3 UB1 UB2 NB.
    eexists _, _.
    split; [chaotic_construct ltac:(fun E => chaotic_rew A1 A2 A3 NA E)|].
    split; [chaotic_construct ltac:(fun E => chaotic_rew B1 B2 B3 NB E)|].
    agree_outside chaotic_pow_dependent.
  - oscillon_unpack Ho1 a1 a2 A1 A2 UA1 UA2 NA1 NA2.
    oscillon_unpack Ho2 b1 b2 B1 B2 UB1 UB2 NB1 NB2.
    eexists _, _.
    split; [oscillon_construct ltac:(fun E => oscillon_rew A1 A2 NA1 NA2 E)|].
    split; [oscillon_construct ltac:(fun E => oscillon_rew B1 B2 NB1 NB2 E)|].
    agree_outside oscillon_pow_dependent.
Qed.

Lemma pow_independent_attributes_witness :
  (∃ s1 s2, @chaotic.Model RefPow.pow = Returns s1
     ∧ @chaotic.Model pow_rounded_up = Returns s2
     ∧ ∀ x, x ∉ chaotic_pow_dependent → s1 !! x = s2 !! x) ∧
  (∃ s1 s2, @oscillon.Model RefPow.pow = Returns s1
     ∧ @oscillon.Model pow_rounded_up = Returns s2
     ∧ ∀ x, x ∉ oscillon_pow_dependent → s1 !! x = s2 !! x).
Proof.
  exact (pow_independent_attributes RefPow.pow pow_rounded_up
           ref_pow_chaotic_ok pow_rounded_up_chaotic_ok
           ref_pow_oscillon_ok pow_rounded_up_oscillon_ok).
Defined.

(** ** Exceptions of the power operator *)

(** Whatever exception [**] raises on the mass unit (an [OverflowError]
    for a mass unit too large to square, say) ends construction with that
    exception, at [self.m**2.]. *)
Theorem power_exception_aborts_construction
    (fpow : FloatPow) (m : float) (c : string) :
  float_pow m 2 = Raises c →
  chaotic.Model_with "m" (VFloat m) = Raises c ∧
  oscillon.Model_with "m" (VFloat m) = Raises c.
Proof.
  intros H. vm_compute in H. split.
  - unfold chaotic.Model_with. apply chaotic_run_raises. expose_body.
    exec_fail ltac:(fun E => rewrite ?H in E; cbv beta iota in E).
  - unfold oscillon.Model_with. apply oscillon_run_raises. expose_body.
    exec_fail ltac:(fun E => rewrite ?H in E; cbv beta iota in E).
Qed.

Lemma power_exception_aborts_construction_witness :
  @chaotic.Model_with RefPow.pow "m" (VFloat 1e200) = Raises "OverflowError" ∧
  @oscillon.Model_with RefPow.pow "m" (VFloat 1e200) = Raises "OverflowError".
Proof.
  apply (power_exception_aborts_construction RefPow.pow 1e200%float "OverflowError").
  lookup_now.
Defined.
